(** * labgrid: the Eaton PDU power driver, [labgrid/driver/power/eaton.py]

    A shallow embedding of the module: the two module constants, the
    [_Snmp] wrapper around pysnmp's high-level API, and the two driver
    entry points [power_set] and [power_get].

    The Python code raises exceptions and talks to the network.  Both are
    made explicit: a computation is a function of the outside world (what
    pysnmp answers to a command) that returns an outcome (a value or the
    exception raised) together with the trace of the interactions it had,
    in program order. *)

From Stdlib Require Import ZArith List String Ascii Bool Lia.
From Stdlib Require Import DecimalString DecimalPos DecimalZ.
From Stdlib Require Import Floats.SpecFloat Floats.PrimFloat Floats.FloatOps.
Import ListNotations.

Local Open Scope string_scope.
Local Open Scope Z_scope.

(** ** Python values reaching the driver

    The arguments of the driver are untyped.  The model keeps the values
    whose treatment the code determines by itself ([None], booleans,
    integers, floats); any other object (a [str], a [Decimal], ...) is
    described by what [int()] does on it. *)

Inductive exn : Type :=
| AssertionError                    (* a failed [assert] *)
| TypeError                         (* [int(None)] *)
| ValueError                        (* [int(float('nan'))], a bad format string *)
| OverflowError                     (* [int(float('inf'))] *)
| IndexError                        (* [res[0]] on an empty sequence *)
| ExecutionError (msg : string)     (* labgrid's own error, [..exception.ExecutionError] *)
| PySnmpError (msg : string).       (* an exception raised inside pysnmp *)

Inductive Result (A : Type) : Type :=
| Ok (a : A)
| Raise (e : exn).

Arguments Ok {A} a.
Arguments Raise {A} e.

(** How [int()] fails on an object it cannot convert. *)
Inductive IntFailure : Type :=
| NotConvertible        (* [TypeError]: a list, a dict, ... *)
| BadLiteral            (* [ValueError]: a [str] that is no integer literal *)
| TooLarge.             (* [OverflowError] *)

Definition exn_of_failure (f : IntFailure) : exn :=
  match f with
  | NotConvertible => TypeError
  | BadLiteral => ValueError
  | TooLarge => OverflowError
  end.

Inductive PyVal : Type :=
| PyNone
| PyBool (b : bool)
| PyInt (z : Z)
| PyFloat (f : spec_float)
| PyObj (as_int : Z + IntFailure).

(** [port is None] *)
Definition is_None (v : PyVal) : bool :=
  match v with
  | PyNone => true
  | _ => false
  end.

(** [int(x)] on a float: the integral part, rounding towards zero.  A
    finite float is [(-1)^s * m * 2^e]. *)
Definition float_trunc (f : spec_float) : Result Z :=
  match f with
  | S754_zero _ => Ok 0
  | S754_infinity _ => Raise OverflowError
  | S754_nan => Raise ValueError
  | S754_finite s m e =>
      let a := Z.shiftl (Z.pos m) e in
      Ok (if s then - a else a)
  end.

(** The builtin [int(x)]. *)
Definition py_int (v : PyVal) : Result Z :=
  match v with
  | PyNone => Raise TypeError
  | PyBool b => Ok (if b then 1 else 0)
  | PyInt z => Ok z
  | PyFloat f => float_trunc f
  | PyObj (inl z) => Ok z
  | PyObj (inr f) => Raise (exn_of_failure f)
  end.

(** ** String formatting

    [str(n)] for an integer, and [template.format(args...)] for the
    templates of the module: automatic fields [{}] and the escapes [{{]
    and [}}]. *)

Definition str_of_int (z : Z) : string :=
  NilZero.string_of_int (Z.to_int z).

Inductive FmtArg : Type :=
| FStr (s : string)
| FInt (z : Z).

Definition py_str (a : FmtArg) : string :=
  match a with
  | FStr s => s
  | FInt z => str_of_int z
  end.

Fixpoint py_format (template : string) (args : list FmtArg) : Result string :=
  match template with
  | EmptyString => Ok EmptyString
  | String "{" (String "}" rest) =>
      match args with
      | [] => Raise IndexError
      | a :: args' =>
          match py_format rest args' with
          | Ok s => Ok (py_str a ++ s)
          | Raise e => Raise e
          end
      end
  | String "{" (String "{" rest) =>
      match py_format rest args with
      | Ok s => Ok (String "{" s)
      | Raise e => Raise e
      end
  | String "}" (String "}" rest) =>
      match py_format rest args with
      | Ok s => Ok (String "}" s)
      | Raise e => Raise e
      end
  | String "{" _ => Raise ValueError
  | String "}" _ => Raise ValueError
  | String c rest =>
      match py_format rest args with
      | Ok s => Ok (String c s)
      | Raise e => Raise e
      end
  end.

(** ** The outside world and the trace

    pysnmp is not part of the module.  What the module does with it is
    build the four session objects, start one command generator
    ([getCmd] or [setCmd]) and ask it for one answer with [next].
    Building the transport target [UdpTransportTarget((host, 161))]
    resolves the host and may raise; the engine, the community data and
    the context hold data only.  [next] either raises or yields the tuple
    [(errorIndication, errorStatus, errorIndex, varBinds)]; the values of
    the variable bindings are the integers the device reports. *)

(** What [next(g)] does on a command generator. *)
Inductive Next : Type :=
| NextRaise (msg : string)
| NextYield (errorIndication : option string) (errorStatus errorIndex : Z)
            (varBinds : list (string * Z)).

(** The session objects held by an [_Snmp] instance: the transport target
    [(host, 161)] and the community data [(community, mpModel=0)]; the
    engine and the context carry no data of the module. *)
Record Snmp : Type := mkSnmp {
  transport_host : string;
  transport_port : Z;
  community : string;
  mpModel : Z
}.

(** [UdpTransportTarget w host port] is [Some msg] when building the
    target raises [PySnmpError(msg)], [None] when it is built. *)
Record World : Type := mkWorld {
  UdpTransportTarget : string -> Z -> option string;
  next_getCmd : Snmp -> string -> Next;
  next_setCmd : Snmp -> string -> Z -> Next
}.

(** The answer a command on a session receives.  A command is answered
    only on a session whose transport target was built: [next] raises
    ([HlRaise]) or yields ([HlYield]); on a target that cannot be built
    the command is never sent ([HlUnsent], with the message of the
    exception that stopped the session). *)
Inductive HlAnswer : Type :=
| HlRaise (msg : string)
| HlYield (errorIndication : option string) (errorStatus errorIndex : Z)
          (varBinds : list (string * Z))
| HlUnsent (msg : string).

Definition answer_on (w : World) (s : Snmp) (nx : Next) : HlAnswer :=
  match UdpTransportTarget w (transport_host s) (transport_port s) with
  | Some msg => HlUnsent msg
  | None =>
      match nx with
      | NextRaise msg => HlRaise msg
      | NextYield ei es ex vb => HlYield ei es ex vb
      end
  end.

Definition getCmd (w : World) (s : Snmp) (oid : string) : HlAnswer :=
  answer_on w s (next_getCmd w s oid).

Definition setCmd (w : World) (s : Snmp) (oid : string) (value : Z) : HlAnswer :=
  answer_on w s (next_setCmd w s oid value).

Inductive Event : Type :=
| EvSession (s : Snmp)                        (* [_Snmp(host, community)] *)
| EvGet (s : Snmp) (oid : string)             (* one [getCmd] request *)
| EvSet (s : Snmp) (oid : string) (value : Z). (* one [setCmd] request *)

Definition Trace : Type := list Event.

(** A computation: reads the world, returns its outcome and what it did. *)
Definition M (A : Type) : Type := World -> Result A * Trace.

Definition ret {A : Type} (a : A) : M A :=
  fun _ => (Ok a, []).

Definition raise {A : Type} (e : exn) : M A :=
  fun _ => (Raise e, []).

Definition bind {A B : Type} (m : M A) (k : A -> M B) : M B :=
  fun w =>
    match m w with
    | (Ok a, t) => let (r, t') := k a w in (r, (t ++ t')%list)
    | (Raise e, t) => (Raise e, t)
    end.

Definition lift {A : Type} (r : Result A) : M A :=
  fun _ => (r, []).

Definition emit (ev : Event) : M unit :=
  fun _ => (Ok tt, [ev]).

Definition ask : M World :=
  fun w => (Ok w, []).

(** [assert b], with assertions enabled (the interpreter's default). *)
Definition py_assert (b : bool) : M unit :=
  if b then ret tt else raise AssertionError.

Declare Scope py_scope.
Delimit Scope py_scope with py.
Notation "x <- m ;; k" := (bind m (fun x => k))
  (at level 100, m at next level, right associativity) : py_scope.
Notation "m ;; k" := (bind m (fun _ => k))
  (at level 100, right associativity) : py_scope.
Local Open Scope py_scope.

(** ** The module *)

Definition OID : string := ".1.3.6.1.4.1.534.6.6.7.6.6.1".
Definition NUMBER_OF_OUTLETS : Z := 16.

Module _Snmp.

(** [__init__(self, host, community)]: the transport target is the one
    object whose construction can fail. *)
Definition __init__ (host community : string) : M Snmp :=
  let self := mkSnmp host 161 community 0 in
  emit (EvSession self) ;;
  w <- ask ;;
  match UdpTransportTarget w host 161 with
  | Some msg => raise (PySnmpError msg)
  | None => ret self
  end.

(** [get(self, oid)]: the first three components of the answer are
    dropped, [res[0][1]] is the value of the first variable binding. *)
Definition get (self : Snmp) (oid : string) : M Z :=
  emit (EvGet self oid) ;;
  w <- ask ;;
  match next_getCmd w self oid with
  | NextRaise msg => raise (PySnmpError msg)
  | NextYield _ _ _ res =>
      match res with
      | [] => raise IndexError
      | (_, v) :: _ => ret v
      end
  end.

(** [set(self, oid, value)]: the answer of [next(g)] is dropped. *)
Definition set (self : Snmp) (oid : string) (value : Z) : M unit :=
  emit (EvSet self oid value) ;;
  w <- ask ;;
  match next_setCmd w self oid value with
  | NextRaise msg => raise (PySnmpError msg)
  | NextYield _ _ _ _ => ret tt
  end.

End _Snmp.

Definition power_set (host : string) (port index value : PyVal) : M unit :=
  py_assert (is_None port) ;;
  index <- lift (py_int index) ;;
  py_assert ((1 <=? index) && (index <=? NUMBER_OF_OUTLETS)) ;;
  _snmp <- _Snmp.__init__ host "public" ;;
  v <- lift (py_int value) ;;
  let id := if v =? 0 then 3 else 4 in
  outlet_control_oid <- lift (py_format "{}.{}.0.{}" [FStr OID; FInt id; FInt index]) ;;
  _Snmp.set _snmp outlet_control_oid 1.

Definition power_get (host : string) (port index : PyVal) : M bool :=
  py_assert (is_None port) ;;
  index <- lift (py_int index) ;;
  py_assert ((1 <=? index) && (index <=? NUMBER_OF_OUTLETS)) ;;
  _snmp <- _Snmp.__init__ host "public" ;;
  output_status_oid <- lift (py_format "{}.2.0.{}" [FStr OID; FInt index]) ;;
  value <- _Snmp.get _snmp output_status_oid ;;
  if value =? 1 then ret true
  else if value =? 0 then ret false
  else if value =? 3 then ret true
  else if value =? 2 then ret false
  else raise (ExecutionError "failed to get SNMP value").

(** ** Reading a trace *)

Definition sessions (t : Trace) : list Snmp :=
  flat_map (fun ev => match ev with EvSession s => [s] | _ => [] end) t.

Definition reads (t : Trace) : list string :=
  flat_map (fun ev => match ev with EvGet _ oid => [oid] | _ => [] end) t.

Definition writes (t : Trace) : list (string * Z) :=
  flat_map (fun ev => match ev with EvSet _ oid v => [(oid, v)] | _ => [] end) t.

(** A world in which every read answers [v] and every write succeeds. *)
Definition world_const (v : Z) : World :=
  mkWorld (fun _ _ => None)
          (fun _ oid => NextYield None 0 0 [(oid, v)])
          (fun _ oid x => NextYield None 0 0 [(oid, x)]).

(** A world in which every command raises inside pysnmp. *)
Definition world_raising (msg : string) : World :=
  mkWorld (fun _ _ => None) (fun _ _ => NextRaise msg) (fun _ _ _ => NextRaise msg).

(** A world in which pysnmp reports a timeout the way its high-level API
    does: no exception, an error indication and no variable bindings. *)
Definition world_timeout : World :=
  mkWorld (fun _ _ => None)
          (fun _ _ => NextYield (Some "No SNMP response received before timeout") 0 0 [])
          (fun _ _ _ => NextYield (Some "No SNMP response received before timeout") 0 0 []).

(** A world in which no host resolves: every transport target fails. *)
Definition world_unresolvable (msg : string) : World :=
  mkWorld (fun _ _ => Some msg)
          (fun _ oid => NextYield None 0 0 [(oid, 1)])
          (fun _ oid x => NextYield None 0 0 [(oid, x)]).

(** The float [16.9] (the double nearest to it): [0x1.0e66666666666p+4]. *)
Definition float_16_9 : spec_float :=
  S754_finite false 4756927106410086 (-48).

(** Abbreviations for the statements below: the session a call builds and
    the addresses it computes (see [format_status] and [format_control],
    which tie them to the format calls of the code). *)
Definition session (host : string) : Snmp := mkSnmp host 161 "public" 0.

Definition status_oid (n : Z) : string :=
  OID ++ ".2.0." ++ str_of_int n.

Definition control_oid (id n : Z) : string :=
  OID ++ "." ++ str_of_int id ++ ".0." ++ str_of_int n.

Definition in_range (n : Z) : Prop := 1 <= n <= NUMBER_OF_OUTLETS.

(** ** Vocabulary of the statements *)

(** The three operations of the driver on an outlet. *)
Inductive Operation : Type :=
| ReadStatus
| WriteOn
| WriteOff.

(** The trace of the driver call that performs an operation. *)
Definition perform (op : Operation) (host : string) (n : Z) (w : World) : Trace :=
  match op with
  | ReadStatus => snd (power_get host PyNone (PyInt n) w)
  | WriteOn => snd (power_set host PyNone (PyInt n) (PyBool true) w)
  | WriteOff => snd (power_set host PyNone (PyInt n) (PyBool false) w)
  end.

(** The addresses a trace touches. *)
Definition addressed (t : Trace) : list string :=
  flat_map (fun ev => match ev with
                      | EvSession _ => []
                      | EvGet _ oid => [oid]
                      | EvSet _ oid _ => [oid]
                      end) t.

(** The address an operation resolves to. *)
Definition address_of (op : Operation) (n : Z) : string :=
  match op with
  | ReadStatus => status_oid n
  | WriteOn => control_oid 4 n
  | WriteOff => control_oid 3 n
  end.

(** The outcome is labgrid's [ExecutionError]. *)
Definition raises_ExecutionError {A : Type} (r : Result A) : Prop :=
  exists msg, r = Raise (ExecutionError msg).

(** The host and the outlet index of the failed call can be read off the
    [ExecutionError] it raised. *)
Definition error_carries_context : Prop :=
  exists context_of : exn -> string * Z,
    forall (host : string) (n : Z) (w : World) (msg : string),
      1 <= n <= 16 ->
      fst (power_get host PyNone (PyInt n) w) = Raise (ExecutionError msg) ->
      context_of (ExecutionError msg) = (host, n).

(** Unfolds a call down to the outcome and the trace. *)
Ltac run_call :=
  unfold power_get, power_set, _Snmp.__init__, _Snmp.get, _Snmp.set,
         bind, lift, emit, ask, ret, raise, py_assert.

(** * Properties *)

(** ** Formatting *)

Lemma float_16_9_is_the_double :
  Prim2SF 0x1.0e66666666666p+4%float = float_16_9.
Proof. reflexivity. Qed.

Lemma append_empty (s : string) : s ++ "" = s.
Proof. induction s as [|c s IH]; simpl; [reflexivity | now rewrite IH]. Qed.

Lemma format_status (n : Z) :
  py_format "{}.2.0.{}" [FStr OID; FInt n] = Ok (status_oid n).
Proof.
  unfold status_oid. cbn [py_format py_str].
  now rewrite append_empty.
Qed.

Lemma format_control (id n : Z) :
  py_format "{}.{}.0.{}" [FStr OID; FInt id; FInt n] = Ok (control_oid id n).
Proof.
  unfold control_oid. cbn [py_format py_str].
  now rewrite append_empty.
Qed.

(** ** What a call does, case by case *)

Lemma range_test_true (n : Z) :
  in_range n -> (1 <=? n) && (n <=? NUMBER_OF_OUTLETS) = true.
Proof.
  intros [H1 H2]. apply andb_true_iff. split; now apply Z.leb_le.
Qed.

Lemma range_test_false (n : Z) :
  ~ in_range n -> (1 <=? n) && (n <=? NUMBER_OF_OUTLETS) = false.
Proof.
  intros H. apply not_true_is_false. intros E.
  apply andb_true_iff in E. destruct E as [E1 E2].
  apply H. split; now apply Z.leb_le.
Qed.

Lemma is_None_false (port : PyVal) : port <> PyNone -> is_None port = false.
Proof. destruct port; simpl; congruence. Qed.

Lemma power_get_port (host : string) (port idx : PyVal) (w : World) :
  port <> PyNone -> power_get host port idx w = (Raise AssertionError, []).
Proof.
  intros H. run_call. now rewrite (is_None_false port H).
Qed.

Lemma power_set_port (host : string) (port idx val : PyVal) (w : World) :
  port <> PyNone -> power_set host port idx val w = (Raise AssertionError, []).
Proof.
  intros H. run_call. now rewrite (is_None_false port H).
Qed.

Lemma power_get_range (host : string) (port idx : PyVal) (n : Z) (w : World) :
  py_int idx = Ok n -> ~ in_range n ->
  power_get host port idx w = (Raise AssertionError, []).
Proof.
  intros Hi Hn. run_call.
  destruct (is_None port); [|reflexivity].
  now rewrite Hi, (range_test_false n Hn).
Qed.

Lemma power_set_range (host : string) (port idx val : PyVal) (n : Z) (w : World) :
  py_int idx = Ok n -> ~ in_range n ->
  power_set host port idx val w = (Raise AssertionError, []).
Proof.
  intros Hi Hn. run_call.
  destruct (is_None port); [|reflexivity].
  now rewrite Hi, (range_test_false n Hn).
Qed.

Lemma getCmd_built (w : World) (host : string) (oid : string) :
  UdpTransportTarget w host 161 = None ->
  getCmd w (session host) oid =
    match next_getCmd w (session host) oid with
    | NextRaise msg => HlRaise msg
    | NextYield ei es ex vb => HlYield ei es ex vb
    end.
Proof. intros H. unfold getCmd, answer_on. cbn. now rewrite H. Qed.

Lemma setCmd_built (w : World) (host : string) (oid : string) (x : Z) :
  UdpTransportTarget w host 161 = None ->
  setCmd w (session host) oid x =
    match next_setCmd w (session host) oid x with
    | NextRaise msg => HlRaise msg
    | NextYield ei es ex vb => HlYield ei es ex vb
    end.
Proof. intros H. unfold setCmd, answer_on. cbn. now rewrite H. Qed.

Lemma getCmd_unbuilt (w : World) (host : string) (oid msg : string) :
  UdpTransportTarget w host 161 = Some msg ->
  getCmd w (session host) oid = HlUnsent msg.
Proof. intros H. unfold getCmd, answer_on. cbn. now rewrite H. Qed.

Lemma setCmd_unbuilt (w : World) (host : string) (oid msg : string) (x : Z) :
  UdpTransportTarget w host 161 = Some msg ->
  setCmd w (session host) oid x = HlUnsent msg.
Proof. intros H. unfold setCmd, answer_on. cbn. now rewrite H. Qed.

(** An answer is there exactly when the transport target was built. *)
Lemma getCmd_answered (w : World) (host oid : string) :
  UdpTransportTarget w host 161 = None <->
  (forall msg, getCmd w (session host) oid <> HlUnsent msg).
Proof.
  split.
  - intros H msg. rewrite (getCmd_built w host oid H).
    destruct (next_getCmd w (session host) oid); discriminate.
  - intros H. destruct (UdpTransportTarget w host 161) as [msg|] eqn:E; [|reflexivity].
    now destruct (H msg (getCmd_unbuilt w host oid msg E)).
Qed.

Lemma setCmd_answered (w : World) (host oid : string) (x : Z) :
  UdpTransportTarget w host 161 = None <->
  (forall msg, setCmd w (session host) oid x <> HlUnsent msg).
Proof.
  split.
  - intros H msg. rewrite (setCmd_built w host oid x H).
    destruct (next_setCmd w (session host) oid x); discriminate.
  - intros H. destruct (UdpTransportTarget w host 161) as [msg|] eqn:E; [|reflexivity].
    now destruct (H msg (setCmd_unbuilt w host oid msg x E)).
Qed.

Lemma power_get_run (host : string) (idx : PyVal) (n : Z) (w : World) :
  py_int idx = Ok n -> in_range n ->
  power_get host PyNone idx w =
  match getCmd w (session host) (status_oid n) with
  | HlUnsent msg => (Raise (PySnmpError msg), [EvSession (session host)])
  | HlRaise msg =>
      (Raise (PySnmpError msg),
       [EvSession (session host); EvGet (session host) (status_oid n)])
  | HlYield _ _ _ [] =>
      (Raise IndexError,
       [EvSession (session host); EvGet (session host) (status_oid n)])
  | HlYield _ _ _ ((_, v) :: _) =>
      (if v =? 1 then Ok true
       else if v =? 0 then Ok false
       else if v =? 3 then Ok true
       else if v =? 2 then Ok false
       else Raise (ExecutionError "failed to get SNMP value"),
       [EvSession (session host); EvGet (session host) (status_oid n)])
  end.
Proof.
  intros Hi Hn. run_call. cbn [is_None].
  rewrite Hi, (range_test_true n Hn). fold (session host).
  unfold getCmd, answer_on. cbn [session transport_host transport_port].
  destruct (UdpTransportTarget w host 161) as [msg|]; [reflexivity|].
  rewrite format_status. fold (session host).
  destruct (next_getCmd w (session host) (status_oid n)) as [msg | ei es ex [|[o v] res]];
    try reflexivity.
  destruct (v =? 1); [reflexivity|].
  destruct (v =? 0); [reflexivity|].
  destruct (v =? 3); [reflexivity|].
  destruct (v =? 2); reflexivity.
Qed.

Lemma power_set_run (host : string) (idx val : PyVal) (n v : Z) (w : World) :
  py_int idx = Ok n -> in_range n -> py_int val = Ok v ->
  power_set host PyNone idx val w =
  match setCmd w (session host) (control_oid (if v =? 0 then 3 else 4) n) 1 with
  | HlUnsent msg => (Raise (PySnmpError msg), [EvSession (session host)])
  | HlRaise msg =>
      (Raise (PySnmpError msg),
       [EvSession (session host);
        EvSet (session host) (control_oid (if v =? 0 then 3 else 4) n) 1])
  | HlYield _ _ _ _ =>
      (Ok tt,
       [EvSession (session host);
        EvSet (session host) (control_oid (if v =? 0 then 3 else 4) n) 1])
  end.
Proof.
  intros Hi Hn Hv. run_call. cbn [is_None].
  rewrite Hi, (range_test_true n Hn). fold (session host).
  unfold setCmd, answer_on. cbn [session transport_host transport_port].
  destruct (UdpTransportTarget w host 161) as [msg|]; [reflexivity|].
  rewrite Hv, format_control. fold (session host).
  destruct (next_setCmd w (session host) (control_oid (if v =? 0 then 3 else 4) n) 1);
    reflexivity.
Qed.

(** A call that passes the checks on a host whose transport target cannot
    be built. *)
Lemma power_get_unbuilt (host : string) (idx : PyVal) (n : Z) (w : World) (msg : string) :
  py_int idx = Ok n -> in_range n -> UdpTransportTarget w host 161 = Some msg ->
  power_get host PyNone idx w = (Raise (PySnmpError msg), [EvSession (session host)]).
Proof.
  intros Hi Hn Hu.
  now rewrite (power_get_run host idx n w Hi Hn), (getCmd_unbuilt w host _ msg Hu).
Qed.

Lemma power_set_unbuilt
    (host : string) (idx val : PyVal) (n : Z) (w : World) (msg : string) :
  py_int idx = Ok n -> in_range n -> UdpTransportTarget w host 161 = Some msg ->
  power_set host PyNone idx val w = (Raise (PySnmpError msg), [EvSession (session host)]).
Proof.
  intros Hi Hn Hu. run_call. cbn [is_None].
  now rewrite Hi, (range_test_true n Hn), Hu.
Qed.

(** The trace of a call that passes the checks on a built session. *)
Lemma power_get_trace_built (host : string) (idx : PyVal) (n : Z) (w : World) :
  py_int idx = Ok n -> in_range n -> UdpTransportTarget w host 161 = None ->
  snd (power_get host PyNone idx w) =
    [EvSession (session host); EvGet (session host) (status_oid n)].
Proof.
  intros Hi Hn Hb.
  rewrite (power_get_run host idx n w Hi Hn), (getCmd_built w host _ Hb).
  now destruct (next_getCmd w (session host) (status_oid n)) as [m | ei es ex [|[o v] r]].
Qed.

Lemma power_set_trace_built (host : string) (idx val : PyVal) (n v : Z) (w : World) :
  py_int idx = Ok n -> in_range n -> py_int val = Ok v ->
  UdpTransportTarget w host 161 = None ->
  snd (power_set host PyNone idx val w) =
    [EvSession (session host);
     EvSet (session host) (control_oid (if v =? 0 then 3 else 4) n) 1].
Proof.
  intros Hi Hn Hv Hb.
  rewrite (power_set_run host idx val n v w Hi Hn Hv), (setCmd_built w host _ 1 Hb).
  now destruct (next_setCmd w (session host) _ 1).
Qed.

(** ** The cases of a call *)

Lemma py_int_failure_kind (x : PyVal) (e : exn) :
  py_int x = Raise e -> e = TypeError \/ e = ValueError \/ e = OverflowError.
Proof.
  destruct x as [| b | z | f | [z | c]]; cbn; try discriminate.
  - intros [= <-]. now left.
  - destruct f; cbn; try discriminate; intros [= <-]; auto.
  - destruct c; cbn; intros [= <-]; auto.
Qed.

Lemma power_get_unconvertible (host : string) (idx : PyVal) (e : exn) (w : World) :
  py_int idx = Raise e -> power_get host PyNone idx w = (Raise e, []).
Proof. intros Hi. run_call. cbn [is_None]. now rewrite Hi. Qed.

Lemma power_set_unconvertible
    (host : string) (idx val : PyVal) (e : exn) (w : World) :
  py_int idx = Raise e -> power_set host PyNone idx val w = (Raise e, []).
Proof. intros Hi. run_call. cbn [is_None]. now rewrite Hi. Qed.

Lemma power_set_value_unconvertible
    (host : string) (idx val : PyVal) (n : Z) (e : exn) (w : World) :
  py_int idx = Ok n -> in_range n -> py_int val = Raise e ->
  UdpTransportTarget w host 161 = None ->
  power_set host PyNone idx val w = (Raise e, [EvSession (session host)]).
Proof.
  intros Hi Hn Hv Hb. run_call. cbn [is_None].
  now rewrite Hi, (range_test_true n Hn), Hb, Hv.
Qed.

Lemma in_range_dec (n : Z) : {in_range n} + {~ in_range n}.
Proof.
  unfold in_range, NUMBER_OF_OUTLETS.
  destruct (Z_le_dec 1 n); [destruct (Z_le_dec n 16)|]; [left | right | right]; lia.
Qed.

(** Where the arguments of a call send it. *)
Lemma call_cases (port idx : PyVal) :
  port <> PyNone \/
  port = PyNone /\
  ((exists e, py_int idx = Raise e) \/
   (exists n, py_int idx = Ok n /\ ~ in_range n) \/
   (exists n, py_int idx = Ok n /\ in_range n)).
Proof.
  destruct port; try (left; discriminate).
  right. split; [reflexivity|].
  destruct (py_int idx) as [n|e].
  - destruct (in_range_dec n); [right; right | right; left]; now exists n.
  - left. now exists e.
Qed.

Ltac decode_status v :=
  destruct (Z.eqb_spec v 1); [|destruct (Z.eqb_spec v 0);
    [|destruct (Z.eqb_spec v 3); [|destruct (Z.eqb_spec v 2)]]].

(** ** Decimal rendering is injective *)

Lemma to_int_printable (z : Z) :
  Z.to_int z <> Decimal.Pos Decimal.Nil /\ Z.to_int z <> Decimal.Neg Decimal.Nil.
Proof.
  destruct z as [|p|p]; simpl; split; try discriminate;
    intros [= E]; now apply (Unsigned.to_uint_nonnil p).
Qed.

Lemma str_of_int_inj (a b : Z) : str_of_int a = str_of_int b -> a = b.
Proof.
  unfold str_of_int. intros E.
  apply (f_equal NilZero.int_of_string) in E.
  destruct (to_int_printable a) as [Ha1 Ha2].
  destruct (to_int_printable b) as [Hb1 Hb2].
  rewrite !NilZero.isi in E by assumption.
  injection E as E. now apply DecimalZ.to_int_inj.
Qed.

Lemma status_oid_inj (n n' : Z) : status_oid n = status_oid n' -> n = n'.
Proof.
  unfold status_oid, OID. simpl. intros [= E]. now apply str_of_int_inj.
Qed.

Lemma control_oid_inj (b b' : bool) (n n' : Z) :
  control_oid (if b then 3 else 4) n = control_oid (if b' then 3 else 4) n' ->
  b = b' /\ n = n'.
Proof.
  unfold control_oid, OID.
  destruct b, b'; simpl; intros [= E];
    (split; [reflexivity | now apply str_of_int_inj]).
Qed.

Lemma status_control_apart (b : bool) (n n' : Z) :
  status_oid n <> control_oid (if b then 3 else 4) n'.
Proof.
  unfold status_oid, control_oid, OID. destruct b; simpl; intros [= E].
Qed.

(** ** Status decoding *)

(** C1, as the code has it.  For an accepted call whose read answers the
    integer [v], [power_get] returns [False] for 0, [True] for 1, [False]
    for 2, [True] for 3, and for every other integer raises
    [ExecutionError] with the message ["failed to get SNMP value"]; no
    integer is mapped to a default boolean. *)
Theorem power_get_decodes_status
    (host : string) (idx : PyVal) (n : Z) (w : World)
    (ei : option string) (es ex : Z) (o : string) (v : Z)
    (rest : list (string * Z)) :
  py_int idx = Ok n -> 1 <= n <= 16 ->
  getCmd w (session host) (status_oid n) = HlYield ei es ex ((o, v) :: rest) ->
  let r := fst (power_get host PyNone idx w) in
  (v = 0 -> r = Ok false) /\
  (v = 1 -> r = Ok true) /\
  (v = 2 -> r = Ok false) /\
  (v = 3 -> r = Ok true) /\
  (v < 0 \/ 3 < v -> r = Raise (ExecutionError "failed to get SNMP value")).
Proof.
  intros Hi Hn Hw r. subst r.
  rewrite (power_get_run host idx n w Hi Hn), Hw. cbn [fst].
  repeat split; intros Hv.
  - now subst v.
  - now subst v.
  - now subst v.
  - now subst v.
  - destruct (Z.eqb_spec v 1); [lia|].
    destruct (Z.eqb_spec v 0); [lia|].
    destruct (Z.eqb_spec v 3); [lia|].
    destruct (Z.eqb_spec v 2); [lia|].
    reflexivity.
Qed.

Lemma power_get_decodes_status_witness :
  fst (power_get "pdu" PyNone (PyInt 5) (world_const 3)) = Ok true /\
  fst (power_get "pdu" PyNone (PyInt 5) (world_const 9)) =
    Raise (ExecutionError "failed to get SNMP value").
Proof.
  split.
  - apply (power_get_decodes_status "pdu" (PyInt 5) 5 (world_const 3)
             None 0 0 (status_oid 5) 3 []); [reflexivity | lia | reflexivity | reflexivity].
  - apply (power_get_decodes_status "pdu" (PyInt 5) 5 (world_const 9)
             None 0 0 (status_oid 5) 9 []); [reflexivity | lia | reflexivity | lia].
Defined.

(** C1, as the claim words the message: an unknown status value does not
    raise with the message ["failed to get status value"]. *)
Lemma power_get_unknown_status_message :
  let r := fst (power_get "pdu" PyNone (PyInt 5) (world_const 4)) in
  r = Raise (ExecutionError "failed to get SNMP value") /\
  r <> Raise (ExecutionError "failed to get status value").
Proof.
  split; [reflexivity | discriminate].
Qed.

(** ** Setting an outlet *)

(** C2.  For an index in 1..16 and either desired state, on a host whose
    session can be built, [power_set] issues exactly one write and no
    read; the value written is 1 for on and for off alike, and the two
    states differ in the address written: sub-object 4 for on, 3 for
    off. *)
Theorem power_set_one_write
    (host : string) (idx : PyVal) (n : Z) (on : bool) (w : World) :
  py_int idx = Ok n -> 1 <= n <= 16 ->
  UdpTransportTarget w host 161 = None ->
  let t := snd (power_set host PyNone idx (PyBool on) w) in
  writes t = [(control_oid (if on then 4 else 3) n, 1)] /\
  reads t = [] /\
  control_oid 4 n <> control_oid 3 n.
Proof.
  intros Hi Hn Hb t. subst t.
  rewrite (power_set_run host idx (PyBool on) n (if on then 1 else 0) w Hi Hn eq_refl),
          (setCmd_built w host _ 1 Hb).
  repeat split.
  - destruct (next_setCmd w (session host) _ 1); now destruct on.
  - now destruct (next_setCmd w (session host) _ 1).
  - intros E. now destruct (control_oid_inj false true n n E).
Qed.

Lemma power_set_one_write_witness :
  let t := snd (power_set "pdu" PyNone (PyInt 5) (PyBool true) (world_const 0)) in
  writes t = [(".1.3.6.1.4.1.534.6.6.7.6.6.1.4.0.5", 1)] /\
  reads t = [] /\
  control_oid 4 5 <> control_oid 3 5.
Proof.
  apply (power_set_one_write "pdu" (PyInt 5) 5 true (world_const 0));
    [reflexivity | lia | reflexivity].
Defined.

(** ** Contract violations *)

(** C3.  When the outlet index is below 1 or above 16, [power_set] and
    [power_get] raise [AssertionError] with an empty trace: no session
    object has been built and no request sent. *)
Theorem index_out_of_range_rejected
    (host : string) (port idx val : PyVal) (n : Z) (w : World) :
  py_int idx = Ok n -> n < 1 \/ 16 < n ->
  power_set host port idx val w = (Raise AssertionError, []) /\
  power_get host port idx w = (Raise AssertionError, []).
Proof.
  intros Hi Hn.
  assert (Hr : ~ in_range n) by (unfold in_range, NUMBER_OF_OUTLETS; lia).
  split.
  - exact (power_set_range host port idx val n w Hi Hr).
  - exact (power_get_range host port idx n w Hi Hr).
Qed.

Lemma index_out_of_range_rejected_witness :
  (power_set "pdu" PyNone (PyInt 0) (PyBool true) (world_const 1) = (Raise AssertionError, []) /\
   power_get "pdu" PyNone (PyInt 0) (world_const 1) = (Raise AssertionError, [])) /\
  (power_set "pdu" PyNone (PyInt 17) (PyBool true) (world_const 1) = (Raise AssertionError, []) /\
   power_get "pdu" PyNone (PyInt 17) (world_const 1) = (Raise AssertionError, [])).
Proof.
  split.
  - apply (index_out_of_range_rejected "pdu" PyNone (PyInt 0) (PyBool true) 0);
      [reflexivity | lia].
  - apply (index_out_of_range_rejected "pdu" PyNone (PyInt 17) (PyBool true) 17);
      [reflexivity | lia].
Defined.

(** C7.  When [port] is not [None], [power_set] and [power_get] raise
    [AssertionError] at once: whatever the index and the value are, the
    trace is empty, so no session was built and nothing was sent. *)
Theorem port_must_be_None
    (host : string) (port idx val : PyVal) (w : World) :
  port <> PyNone ->
  power_set host port idx val w = (Raise AssertionError, []) /\
  power_get host port idx w = (Raise AssertionError, []).
Proof.
  intros H. split.
  - exact (power_set_port host port idx val w H).
  - exact (power_get_port host port idx w H).
Qed.

Lemma port_must_be_None_witness :
  power_set "pdu" (PyInt 161) (PyInt 5) (PyBool true) (world_const 1) =
    (Raise AssertionError, []) /\
  power_get "pdu" (PyInt 161) (PyObj (inr BadLiteral)) (world_const 1) =
    (Raise AssertionError, []).
Proof.
  split.
  - apply (port_must_be_None "pdu" (PyInt 161) (PyInt 5) (PyBool true)). discriminate.
  - apply (port_must_be_None "pdu" (PyInt 161) (PyObj (inr BadLiteral)) PyNone). discriminate.
Defined.

(** ** Failures of the session *)

(** C4, as the code has it.  When pysnmp raises during the read of
    [power_get] or the write of [power_set], the caller receives that very
    exception, unchanged; the trace holds the one request that failed and
    no second attempt, and the outcome is no boolean. *)
Theorem session_failure_propagates
    (host : string) (idx val : PyVal) (n v : Z) (w : World) (msg : string) :
  py_int idx = Ok n -> 1 <= n <= 16 -> py_int val = Ok v ->
  (getCmd w (session host) (status_oid n) = HlRaise msg ->
   power_get host PyNone idx w =
     (Raise (PySnmpError msg),
      [EvSession (session host); EvGet (session host) (status_oid n)])) /\
  (setCmd w (session host) (control_oid (if v =? 0 then 3 else 4) n) 1 = HlRaise msg ->
   power_set host PyNone idx val w =
     (Raise (PySnmpError msg),
      [EvSession (session host);
       EvSet (session host) (control_oid (if v =? 0 then 3 else 4) n) 1])).
Proof.
  intros Hi Hn Hv. split; intros Hw.
  - now rewrite (power_get_run host idx n w Hi Hn), Hw.
  - now rewrite (power_set_run host idx val n v w Hi Hn Hv), Hw.
Qed.

Lemma session_failure_propagates_witness :
  power_get "pdu" PyNone (PyInt 5) (world_raising "timeout") =
    (Raise (PySnmpError "timeout"),
     [EvSession (session "pdu"); EvGet (session "pdu") (status_oid 5)]) /\
  power_set "pdu" PyNone (PyInt 5) (PyBool false) (world_raising "timeout") =
    (Raise (PySnmpError "timeout"),
     [EvSession (session "pdu"); EvSet (session "pdu") (control_oid 3 5) 1]).
Proof.
  split.
  - apply (session_failure_propagates "pdu" (PyInt 5) (PyBool false) 5 0
             (world_raising "timeout") "timeout");
      [reflexivity | lia | reflexivity | reflexivity].
  - apply (session_failure_propagates "pdu" (PyInt 5) (PyBool false) 5 0
             (world_raising "timeout") "timeout");
      [reflexivity | lia | reflexivity | reflexivity].
Defined.

(** C4, as the claim words it: a failure raised by the session does not
    reach the caller as an [ExecutionError], neither from the read nor
    from the write. *)
Lemma session_failure_is_not_ExecutionError :
  ~ raises_ExecutionError
      (fst (power_get "pdu" PyNone (PyInt 5) (world_raising "timeout"))) /\
  ~ raises_ExecutionError
      (fst (power_set "pdu" PyNone (PyInt 5) (PyBool true) (world_raising "timeout"))).
Proof.
  split; intros [msg E]; discriminate E.
Qed.

(** A failure that pysnmp reports in [errorIndication] instead of raising
    is not looked at: the write returns normally, the read fails on the
    empty [varBinds]. *)
Lemma error_indication_dropped :
  fst (power_set "pdu" PyNone (PyInt 5) (PyBool true) world_timeout) = Ok tt /\
  fst (power_get "pdu" PyNone (PyInt 5) world_timeout) = Raise IndexError.
Proof. split; reflexivity. Qed.

(** ** What an error tells the caller *)

(** C8, as the claim words it: two failing calls on different hosts and
    outlets raise the same error, so neither can be recovered from it. *)
Lemma error_does_not_carry_context : ~ error_carries_context.
Proof.
  intros [context_of H].
  pose proof (H "pdu-a" 1 (world_const 7) "failed to get SNMP value"
                ltac:(lia) eq_refl) as Ha.
  pose proof (H "pdu-b" 2 (world_const 7) "failed to get SNMP value"
                ltac:(lia) eq_refl) as Hb.
  rewrite Ha in Hb. discriminate Hb.
Qed.

(** [int()] fails with an exception of its own. *)
Lemma py_int_failure (x : PyVal) (e : exn) (msg : string) :
  py_int x = Raise e -> e <> ExecutionError msg.
Proof.
  destruct x as [| b | z | f | [z | c]]; cbn; try discriminate.
  - intros [= <-]. discriminate.
  - destruct f; cbn; try discriminate; intros [= <-]; discriminate.
  - destruct c; cbn; intros [= <-]; discriminate.
Qed.

(** C8, as the code has it.  Every [ExecutionError] raised by [power_get]
    carries the one fixed message ["failed to get SNMP value"], whatever
    the host, the port, the index and the device's answer; [power_set]
    raises no [ExecutionError] at all. *)
Theorem ExecutionError_message_fixed
    (host : string) (port idx val : PyVal) (w : World) (msg : string) :
  (fst (power_get host port idx w) = Raise (ExecutionError msg) ->
   msg = "failed to get SNMP value") /\
  fst (power_set host port idx val w) <> Raise (ExecutionError msg).
Proof.
  split.
  - run_call.
    destruct (is_None port); [|discriminate].
    destruct (py_int idx) as [n|e] eqn:Hi.
    + destruct ((1 <=? n) && (n <=? NUMBER_OF_OUTLETS)); [|discriminate].
      cbn [app].
      destruct (UdpTransportTarget w host 161); [discriminate|].
      rewrite format_status.
      destruct (next_getCmd w _ _) as [m | ei es ex [|[o v] res]]; try discriminate.
      destruct (v =? 1); [discriminate|].
      destruct (v =? 0); [discriminate|].
      destruct (v =? 3); [discriminate|].
      destruct (v =? 2); [discriminate|].
      cbn. now intros [= <-].
    + cbn. intros [= E]. now destruct (py_int_failure idx e msg Hi).
  - run_call.
    destruct (is_None port); [|discriminate].
    destruct (py_int idx) as [n|e] eqn:Hi.
    + destruct ((1 <=? n) && (n <=? NUMBER_OF_OUTLETS)); [|discriminate].
      cbn [app].
      destruct (UdpTransportTarget w host 161); [discriminate|].
      destruct (py_int val) as [v|e] eqn:Hv.
      * rewrite format_control.
        destruct (next_setCmd w _ _ _); discriminate.
      * cbn. intros [= E]. now destruct (py_int_failure val e msg Hv).
    + cbn. intros [= E]. now destruct (py_int_failure idx e msg Hi).
Qed.

Lemma ExecutionError_message_fixed_witness :
  fst (power_get "pdu" PyNone (PyInt 5) (world_const 7)) =
    Raise (ExecutionError "failed to get SNMP value") /\
  "failed to get SNMP value" = "failed to get SNMP value".
Proof.
  split; [reflexivity|].
  apply (ExecutionError_message_fixed "pdu" PyNone (PyInt 5) PyNone (world_const 7)
           "failed to get SNMP value").
  reflexivity.
Defined.

(** ** Addresses *)

Lemma perform_addressed (op : Operation) (host : string) (n : Z) (w : World) :
  in_range n -> UdpTransportTarget w host 161 = None ->
  addressed (perform op host n w) = [address_of op n].
Proof.
  intros Hn Hb. destruct op; unfold perform.
  - now rewrite (power_get_trace_built host (PyInt n) n w eq_refl Hn Hb).
  - now rewrite (power_set_trace_built host (PyInt n) (PyBool true) n 1 w
                   eq_refl Hn eq_refl Hb).
  - now rewrite (power_set_trace_built host (PyInt n) (PyBool false) n 0 w
                   eq_refl Hn eq_refl Hb).
Qed.

Lemma address_of_inj (op op' : Operation) (n n' : Z) :
  address_of op n = address_of op' n' -> op = op' /\ n = n'.
Proof.
  destruct op, op'; cbn [address_of]; intros E.
  - split; [reflexivity | now apply status_oid_inj].
  - now destruct (status_control_apart false n n').
  - now destruct (status_control_apart true n n').
  - symmetry in E. now destruct (status_control_apart false n' n).
  - split; [reflexivity | now destruct (control_oid_inj false false n n' E)].
  - now destruct (control_oid_inj false true n n' E).
  - symmetry in E. now destruct (status_control_apart true n' n).
  - now destruct (control_oid_inj true false n n' E).
  - split; [reflexivity | now destruct (control_oid_inj true true n n' E)].
Qed.

(** C5.  For outlet indices in 1..16 and the three operations (read
    status, write on, write off), among calls that reach their request
    (the session of the host can be built): a call touches one address,
    which is the same on every such host and whatever the device answers,
    and two calls touch the same address only if they perform the same
    operation on the same outlet. *)
Theorem address_deterministic_and_distinct
    (op op' : Operation) (n n' : Z) (host host' : string) (w w' : World) :
  1 <= n <= 16 -> 1 <= n' <= 16 ->
  UdpTransportTarget w host 161 = None ->
  UdpTransportTarget w' host' 161 = None ->
  (exists a, addressed (perform op host n w) = [a]) /\
  addressed (perform op host n w) = addressed (perform op host' n w') /\
  (addressed (perform op host n w) = addressed (perform op' host' n' w') ->
   op = op' /\ n = n').
Proof.
  intros Hn Hn' Hb Hb'.
  rewrite (perform_addressed op host n w Hn Hb),
          (perform_addressed op host' n w' Hn Hb'),
          (perform_addressed op' host' n' w' Hn' Hb').
  repeat split.
  - now exists (address_of op n).
  - injection H as E. now destruct (address_of_inj op op' n n' E).
  - injection H as E. now destruct (address_of_inj op op' n n' E).
Qed.

Lemma address_deterministic_and_distinct_witness :
  (exists a, addressed (perform WriteOn "pdu-a" 5 (world_const 0)) = [a]) /\
  addressed (perform WriteOn "pdu-a" 5 (world_const 0)) =
    addressed (perform WriteOn "pdu-b" 5 (world_raising "timeout")) /\
  (addressed (perform WriteOn "pdu-a" 5 (world_const 0)) =
     addressed (perform WriteOn "pdu-b" 5 (world_raising "timeout")) ->
   WriteOn = WriteOn /\ 5 = 5).
Proof.
  apply (address_deterministic_and_distinct WriteOn WriteOn 5 5 "pdu-a" "pdu-b"
           (world_const 0) (world_raising "timeout")); (lia || reflexivity).
Defined.

(** C6.  For an index in 1..16 the address read by [power_get] is
    [OID.2.0.<index>] and the address written by [power_set] is
    [OID.3.0.<index>] or [OID.4.0.<index>]; [OID] and the outlet count 16
    are constants of the module: on every host and for every answer of the
    device, an integer index is refused exactly when it lies outside
    1..16.  The addresses are those of a call that reaches its request,
    on a host whose session can be built. *)
Theorem address_shape
    (host : string) (idx val : PyVal) (n v : Z) (w : World) :
  py_int idx = Ok n -> 1 <= n <= 16 -> py_int val = Ok v ->
  UdpTransportTarget w host 161 = None ->
  reads (snd (power_get host PyNone idx w)) =
    [OID ++ "." ++ "2" ++ ".0." ++ str_of_int n] /\
  map fst (writes (snd (power_set host PyNone idx val w))) =
    [OID ++ "." ++ (if v =? 0 then "3" else "4") ++ ".0." ++ str_of_int n] /\
  OID = ".1.3.6.1.4.1.534.6.6.7.6.6.1" /\
  NUMBER_OF_OUTLETS = 16 /\
  (forall m : Z,
     fst (power_get host PyNone (PyInt m) w) = Raise AssertionError <->
     ~ 1 <= m <= 16).
Proof.
  intros Hi Hn Hv Hb.
  rewrite (power_get_trace_built host idx n w Hi Hn Hb),
          (power_set_trace_built host idx val n v w Hi Hn Hv Hb).
  repeat split.
  - cbn. unfold control_oid. now destruct (v =? 0).
  - intros E Hm.
    rewrite (power_get_run host (PyInt m) m w eq_refl Hm) in E.
    destruct (getCmd w _ _) as [e | ei es ex [|[o x] res] | e];
      cbn [fst] in E; try discriminate E.
    destruct (x =? 1); [discriminate E|].
    destruct (x =? 0); [discriminate E|].
    destruct (x =? 3); [discriminate E|].
    destruct (x =? 2); discriminate E.
  - intros Hm.
    now rewrite (power_get_range host PyNone (PyInt m) m w eq_refl Hm).
Qed.

Lemma address_shape_witness :
  reads (snd (power_get "pdu" PyNone (PyInt 16) (world_const 1))) =
    [OID ++ "." ++ "2" ++ ".0." ++ str_of_int 16] /\
  map fst (writes (snd (power_set "pdu" PyNone (PyInt 16) (PyBool true) (world_const 1)))) =
    [OID ++ "." ++ "4" ++ ".0." ++ str_of_int 16] /\
  OID = ".1.3.6.1.4.1.534.6.6.7.6.6.1" /\
  NUMBER_OF_OUTLETS = 16 /\
  (forall m : Z,
     fst (power_get "pdu" PyNone (PyInt m) (world_const 1)) = Raise AssertionError <->
     ~ 1 <= m <= 16).
Proof.
  apply (address_shape "pdu" (PyInt 16) (PyBool true) 16 1 (world_const 1));
    [reflexivity | lia | reflexivity | reflexivity].
Defined.

(** ** Coercions *)

Lemma power_get_coerces (host : string) (port idx : PyVal) (n : Z) (w : World) :
  py_int idx = Ok n -> power_get host port idx w = power_get host port (PyInt n) w.
Proof.
  intros Hi. run_call. destruct (is_None port); [|reflexivity].
  now rewrite Hi.
Qed.

Lemma power_set_coerces (host : string) (port idx val : PyVal) (n : Z) (w : World) :
  py_int idx = Ok n ->
  power_set host port idx val w = power_set host port (PyInt n) val w.
Proof.
  intros Hi. run_call. destruct (is_None port); [|reflexivity].
  now rewrite Hi.
Qed.

Lemma float_trunc_quot (s : bool) (m : positive) (e : Z) :
  float_trunc (S754_finite s m e) =
    Ok (Z.quot ((if s then Z.neg m else Z.pos m) * 2 ^ Z.max e 0) (2 ^ Z.max (- e) 0)).
Proof.
  cbn [float_trunc]. f_equal.
  assert (Hq : Z.shiftl (Z.pos m) e =
               Z.quot (Z.pos m * 2 ^ Z.max e 0) (2 ^ Z.max (- e) 0)).
  { destruct (Z_le_dec 0 e) as [He | He].
    - rewrite (Z.max_l e 0), (Z.max_r (- e) 0) by lia.
      rewrite Z.shiftl_mul_pow2 by lia. cbn [Z.pow]. now rewrite Z.quot_1_r.
    - rewrite (Z.max_r e 0), (Z.max_l (- e) 0) by lia.
      change (Z.shiftl (Z.pos m) e) with (Z.shiftl (Z.pos m) e).
      replace e with (- (- e)) at 1 by lia.
      change (Z.shiftl (Z.pos m) (- (- e))) with (Z.shiftr (Z.pos m) (- e)).
      rewrite Z.shiftr_div_pow2 by lia. cbn [Z.pow]. rewrite Z.mul_1_r.
      rewrite Z.quot_div_nonneg; [reflexivity | lia | apply Z.pow_pos_nonneg; lia]. }
  destruct s; [|exact Hq].
  rewrite Hq.
  change (Z.neg m) with (- Z.pos m).
  rewrite Z.mul_opp_l, Z.quot_opp_l; [reflexivity|].
  apply Z.pow_nonzero; lia.
Qed.

(** C9.  Both entry points convert the index with [int()] before the
    range check.  A finite float index [(-1)^s * m * 2^e] is cut to its
    integral part [n], the quotient rounded towards zero, and the call
    goes on exactly as for the integer [n]: when [n] is in 1..16 (for
    16.9: outlet 16) it passes the check and, on a host whose session can
    be built, addresses outlet [n] instead of failing as a caller
    error. *)
Theorem float_index_truncated
    (host : string) (s : bool) (m : positive) (e : Z) (val : PyVal) (w : World) :
  let f := S754_finite s m e in
  let n := Z.quot ((if s then Z.neg m else Z.pos m) * 2 ^ Z.max e 0)
                  (2 ^ Z.max (- e) 0) in
  power_get host PyNone (PyFloat f) w = power_get host PyNone (PyInt n) w /\
  power_set host PyNone (PyFloat f) val w = power_set host PyNone (PyInt n) val w /\
  (1 <= n <= 16 -> UdpTransportTarget w host 161 = None ->
   snd (power_get host PyNone (PyFloat f) w) =
     [EvSession (session host); EvGet (session host) (status_oid n)] /\
   sessions (snd (power_set host PyNone (PyFloat f) val w)) = [session host]).
Proof.
  intros f n.
  assert (Hf : py_int (PyFloat f) = Ok n) by exact (float_trunc_quot s m e).
  split; [exact (power_get_coerces host PyNone (PyFloat f) n w Hf)|].
  split; [exact (power_set_coerces host PyNone (PyFloat f) val n w Hf)|].
  intros Hn Hb. split.
  - exact (power_get_trace_built host (PyFloat f) n w Hf Hn Hb).
  - destruct (py_int val) as [v|x] eqn:Hv.
    + now rewrite (power_set_trace_built host (PyFloat f) val n v w Hf Hn Hv Hb).
    + now rewrite (power_set_value_unconvertible host (PyFloat f) val n x w Hf Hn Hv Hb).
Qed.

Lemma float_index_truncated_witness :
  snd (power_get "pdu" PyNone (PyFloat float_16_9) (world_const 1)) =
    [EvSession (session "pdu"); EvGet (session "pdu") (status_oid 16)] /\
  sessions (snd (power_set "pdu" PyNone (PyFloat float_16_9) (PyBool true)
                   (world_const 1))) = [session "pdu"].
Proof.
  apply (float_index_truncated "pdu" false 4756927106410086 (-48) (PyBool true)
           (world_const 1)).
  - vm_compute. split; discriminate.
  - reflexivity.
Defined.




(** * Further properties of the module *)

(** ** Arguments that cannot be converted *)

(** X1.  When [port] is [None] and [int(index)] raises, [power_set] and
    [power_get] raise that exception, a [TypeError], [ValueError] or
    [OverflowError], and the trace is empty. *)
Theorem index_not_convertible
    (host : string) (idx val : PyVal) (e : exn) (w : World) :
  py_int idx = Raise e ->
  power_set host PyNone idx val w = (Raise e, []) /\
  power_get host PyNone idx w = (Raise e, []) /\
  (e = TypeError \/ e = ValueError \/ e = OverflowError).
Proof.
  intros Hi. split; [|split].
  - exact (power_set_unconvertible host idx val e w Hi).
  - exact (power_get_unconvertible host idx e w Hi).
  - exact (py_int_failure_kind idx e Hi).
Qed.

Lemma index_not_convertible_witness :
  power_set "pdu" PyNone (PyFloat S754_nan) (PyBool true) (world_const 1) =
    (Raise ValueError, []) /\
  power_get "pdu" PyNone (PyFloat S754_nan) (world_const 1) = (Raise ValueError, []) /\
  (ValueError = TypeError \/ ValueError = ValueError \/ ValueError = OverflowError).
Proof.
  apply (index_not_convertible "pdu" (PyFloat S754_nan) (PyBool true) ValueError
           (world_const 1)).
  reflexivity.
Defined.

(** X2.  In [power_set] the value is converted after the session is built:
    for an accepted index on a host whose session can be built, when
    [int(value)] raises, that exception reaches the caller, the session
    has been created and no write was sent. *)
Theorem value_not_convertible
    (host : string) (idx val : PyVal) (n : Z) (e : exn) (w : World) :
  py_int idx = Ok n -> 1 <= n <= 16 -> py_int val = Raise e ->
  UdpTransportTarget w host 161 = None ->
  power_set host PyNone idx val w = (Raise e, [EvSession (session host)]) /\
  writes (snd (power_set host PyNone idx val w)) = [].
Proof.
  intros Hi Hn Hv Hb.
  now rewrite (power_set_value_unconvertible host idx val n e w Hi Hn Hv Hb).
Qed.

Lemma value_not_convertible_witness :
  power_set "pdu" PyNone (PyInt 5) PyNone (world_const 1) =
    (Raise TypeError, [EvSession (session "pdu")]) /\
  writes (snd (power_set "pdu" PyNone (PyInt 5) PyNone (world_const 1))) = [].
Proof.
  apply (value_not_convertible "pdu" (PyInt 5) PyNone 5 TypeError (world_const 1));
    [reflexivity | lia | reflexivity | reflexivity].
Defined.

(** ** The shape of a trace *)

(** X3.  Whatever its arguments and whatever the device answers,
    [power_get] touches nothing, or only starts building its session (to
    the given host, port 161, community [public], SNMPv1) and stops there
    because the transport target cannot be built, or builds it and sends
    one read, to the status address of an outlet in 1..16; it never
    writes. *)
Theorem power_get_trace_shape (host : string) (port idx : PyVal) (w : World) :
  let t := snd (power_get host port idx w) in
  t = [] \/
  (t = [EvSession (mkSnmp host 161 "public" 0)] /\
   UdpTransportTarget w host 161 <> None) \/
  exists n, py_int idx = Ok n /\ 1 <= n <= 16 /\
    UdpTransportTarget w host 161 = None /\
    t = [EvSession (mkSnmp host 161 "public" 0);
         EvGet (mkSnmp host 161 "public" 0) (status_oid n)].
Proof.
  cbv zeta.
  destruct (call_cases port idx) as [Hp | [-> [[e Hi] | [[n [Hi Hn]] | [n [Hi Hn]]]]]].
  - left. now rewrite (power_get_port host port idx w Hp).
  - left. now rewrite (power_get_unconvertible host idx e w Hi).
  - left. now rewrite (power_get_range host PyNone idx n w Hi Hn).
  - right. destruct (UdpTransportTarget w host 161) as [msg|] eqn:Hb.
    + left. rewrite (power_get_unbuilt host idx n w msg Hi Hn Hb).
      split; [reflexivity | discriminate].
    + right. exists n. split; [exact Hi|]. split; [exact Hn|].
      split; [reflexivity|].
      exact (power_get_trace_built host idx n w Hi Hn Hb).
Qed.

(** X4.  Whatever its arguments and whatever the device answers,
    [power_set] touches nothing, or only builds its session, or builds it
    and sends one write of the value 1 to sub-object 3 or 4 of an outlet
    in 1..16; it never reads. *)
Theorem power_set_trace_shape (host : string) (port idx val : PyVal) (w : World) :
  let t := snd (power_set host port idx val w) in
  t = [] \/
  t = [EvSession (mkSnmp host 161 "public" 0)] \/
  exists n id, py_int idx = Ok n /\ 1 <= n <= 16 /\ (id = 3 \/ id = 4) /\
    t = [EvSession (mkSnmp host 161 "public" 0);
         EvSet (mkSnmp host 161 "public" 0) (control_oid id n) 1].
Proof.
  cbv zeta.
  destruct (call_cases port idx) as [Hp | [-> [[e Hi] | [[n [Hi Hn]] | [n [Hi Hn]]]]]].
  - left. now rewrite (power_set_port host port idx val w Hp).
  - left. now rewrite (power_set_unconvertible host idx val e w Hi).
  - left. now rewrite (power_set_range host PyNone idx val n w Hi Hn).
  - right. destruct (UdpTransportTarget w host 161) as [msg|] eqn:Hb.
    { left. now rewrite (power_set_unbuilt host idx val n w msg Hi Hn Hb). }
    destruct (py_int val) as [v|e] eqn:Hv.
    + right. exists n, (if v =? 0 then 3 else 4).
      split; [exact Hi|]. split; [exact Hn|].
      split; [destruct (v =? 0); auto|].
      exact (power_set_trace_built host idx val n v w Hi Hn Hv Hb).
    + left. now rewrite (power_set_value_unconvertible host idx val n e w Hi Hn Hv Hb).
Qed.

(** ** Which outcome, when *)

Ltac int_failure_absurd H Hi :=
  let K := fresh in
  injection H as H; subst;
  destruct (py_int_failure_kind _ _ Hi) as [K | [K | K]]; discriminate K.

(** X5.  [power_get] returns a boolean exactly when [port] is [None], the
    index converts to an outlet in 1..16 and the first value of the answer
    is one of 0, 1, 2, 3; the boolean is then the parity of that value
    (odd: on, even: off), whatever else the answer holds. *)
Theorem power_get_returns_iff
    (host : string) (port idx : PyVal) (w : World) (b : bool) :
  fst (power_get host port idx w) = Ok b <->
  port = PyNone /\
  exists n ei es ex o v rest,
    py_int idx = Ok n /\ 1 <= n <= 16 /\
    getCmd w (session host) (status_oid n) = HlYield ei es ex ((o, v) :: rest) /\
    0 <= v <= 3 /\ b = Z.odd v.
Proof.
  split.
  - intros H.
    destruct (call_cases port idx) as [Hp | [-> [[e Hi] | [[n [Hi Hn]] | [n [Hi Hn]]]]]].
    + rewrite (power_get_port host port idx w Hp) in H. discriminate H.
    + rewrite (power_get_unconvertible host idx e w Hi) in H. discriminate H.
    + rewrite (power_get_range host PyNone idx n w Hi Hn) in H. discriminate H.
    + split; [reflexivity|].
      rewrite (power_get_run host idx n w Hi Hn) in H.
      destruct (getCmd w (session host) (status_oid n))
        as [m | ei es ex [|[o v] rest] | m] eqn:Hw; cbn [fst] in H; try discriminate H.
      exists n, ei, es, ex, o, v, rest.
      repeat (split; [first [exact Hi | exact Hn | exact Hw]|]).
      decode_status v; try discriminate H; injection H as <-; subst v;
        (split; [lia | reflexivity]).
  - intros [-> (n & ei & es & ex & o & v & rest & Hi & Hn & Hw & Hv & ->)].
    rewrite (power_get_run host idx n w Hi Hn), Hw. cbn [fst].
    assert (Hc : v = 0 \/ v = 1 \/ v = 2 \/ v = 3) by lia.
    destruct Hc as [-> | [-> | [-> | ->]]]; reflexivity.
Qed.

Lemma power_get_returns_iff_witness :
  fst (power_get "pdu" PyNone (PyInt 5) (world_const 2)) = Ok false.
Proof.
  apply (power_get_returns_iff "pdu" PyNone (PyInt 5) (world_const 2) false).
  split; [reflexivity|].
  exists 5, None, 0, 0, (status_oid 5), 2, [].
  repeat split; try reflexivity; lia.
Defined.

(** X6.  [power_set] returns normally exactly when [port] is [None], the
    index converts to an outlet in 1..16, the value converts to an integer
    and [next] on the command yields an answer.  What the answer says is
    not looked at: a write that pysnmp reports as failed in
    [errorIndication] or [errorStatus] still returns normally. *)
Theorem power_set_returns_iff
    (host : string) (port idx val : PyVal) (w : World) :
  fst (power_set host port idx val w) = Ok tt <->
  port = PyNone /\
  exists n v ei es ex vb,
    py_int idx = Ok n /\ 1 <= n <= 16 /\ py_int val = Ok v /\
    setCmd w (session host) (control_oid (if v =? 0 then 3 else 4) n) 1 =
      HlYield ei es ex vb.
Proof.
  split.
  - intros H.
    destruct (call_cases port idx) as [Hp | [-> [[e Hi] | [[n [Hi Hn]] | [n [Hi Hn]]]]]].
    + rewrite (power_set_port host port idx val w Hp) in H. discriminate H.
    + rewrite (power_set_unconvertible host idx val e w Hi) in H. discriminate H.
    + rewrite (power_set_range host PyNone idx val n w Hi Hn) in H. discriminate H.
    + split; [reflexivity|].
      destruct (UdpTransportTarget w host 161) as [msg|] eqn:Hb.
      { rewrite (power_set_unbuilt host idx val n w msg Hi Hn Hb) in H. discriminate H. }
      destruct (py_int val) as [v|e] eqn:Hv.
      * rewrite (power_set_run host idx val n v w Hi Hn Hv) in H.
        destruct (setCmd w (session host) (control_oid (if v =? 0 then 3 else 4) n) 1)
          as [m | ei es ex vb | m] eqn:Hw; cbn [fst] in H; try discriminate H.
        exists n, v, ei, es, ex, vb. repeat split; auto; apply Hn.
      * rewrite (power_set_value_unconvertible host idx val n e w Hi Hn Hv Hb) in H.
        discriminate H.
  - intros [-> (n & v & ei & es & ex & vb & Hi & Hn & Hv & Hw)].
    now rewrite (power_set_run host idx val n v w Hi Hn Hv), Hw.
Qed.

Lemma power_set_returns_iff_witness :
  fst (power_set "pdu" PyNone (PyInt 5) (PyBool true) world_timeout) = Ok tt.
Proof.
  apply (power_set_returns_iff "pdu" PyNone (PyInt 5) (PyBool true) world_timeout).
  split; [reflexivity|].
  exists 5, 1, (Some "No SNMP response received before timeout"), 0, 0, [].
  repeat split; try reflexivity; lia.
Defined.

(** X7.  [power_get] and [power_set] raise [AssertionError] exactly when
    [port] is not [None] or the index converts to an integer below 1 or
    above 16; nothing the value or the device does leads to it. *)
Theorem AssertionError_iff
    (host : string) (port idx val : PyVal) (w : World) :
  (fst (power_get host port idx w) = Raise AssertionError <->
   port <> PyNone \/ exists n, py_int idx = Ok n /\ (n < 1 \/ 16 < n)) /\
  (fst (power_set host port idx val w) = Raise AssertionError <->
   port <> PyNone \/ exists n, py_int idx = Ok n /\ (n < 1 \/ 16 < n)).
Proof.
  assert (Hout : forall n, ~ in_range n <-> n < 1 \/ 16 < n)
    by (intros n; unfold in_range, NUMBER_OF_OUTLETS; lia).
  split; split.
  - intros H.
    destruct (call_cases port idx) as [Hp | [-> [[e Hi] | [[n [Hi Hn]] | [n [Hi Hn]]]]]].
    + now left.
    + rewrite (power_get_unconvertible host idx e w Hi) in H. int_failure_absurd H Hi.
    + right. exists n. split; [exact Hi | now apply Hout].
    + rewrite (power_get_run host idx n w Hi Hn) in H.
      destruct (getCmd w (session host) (status_oid n))
        as [m | ei es ex [|[o v] rest] | m]; cbn [fst] in H; try discriminate H.
      decode_status v; discriminate H.
  - intros [Hp | [n [Hi Hn]]].
    + now rewrite (power_get_port host port idx w Hp).
    + apply Hout in Hn. now rewrite (power_get_range host port idx n w Hi Hn).
  - intros H.
    destruct (call_cases port idx) as [Hp | [-> [[e Hi] | [[n [Hi Hn]] | [n [Hi Hn]]]]]].
    + now left.
    + rewrite (power_set_unconvertible host idx val e w Hi) in H. int_failure_absurd H Hi.
    + right. exists n. split; [exact Hi | now apply Hout].
    + destruct (UdpTransportTarget w host 161) as [msg|] eqn:Hb.
      { rewrite (power_set_unbuilt host idx val n w msg Hi Hn Hb) in H. discriminate H. }
      destruct (py_int val) as [v|e] eqn:Hv.
      * rewrite (power_set_run host idx val n v w Hi Hn Hv) in H.
        destruct (setCmd w (session host) (control_oid (if v =? 0 then 3 else 4) n) 1);
          discriminate H.
      * rewrite (power_set_value_unconvertible host idx val n e w Hi Hn Hv Hb) in H.
        int_failure_absurd H Hv.
  - intros [Hp | [n [Hi Hn]]].
    + now rewrite (power_set_port host port idx val w Hp).
    + apply Hout in Hn. now rewrite (power_set_range host port idx val n w Hi Hn).
Qed.

Lemma AssertionError_iff_witness :
  fst (power_get "pdu" PyNone (PyBool false) (world_const 1)) = Raise AssertionError /\
  fst (power_set "pdu" (PyBool false) (PyInt 5) (PyInt 1) (world_const 1)) =
    Raise AssertionError.
Proof.
  split.
  - apply (AssertionError_iff "pdu" PyNone (PyBool false) PyNone (world_const 1)).
    right. exists 0. split; [reflexivity | lia].
  - apply (AssertionError_iff "pdu" (PyBool false) (PyInt 5) (PyInt 1) (world_const 1)).
    left. discriminate.
Defined.

(** X8.  [power_get] raises [IndexError] exactly when the call is accepted
    and the answer comes without variable bindings, whatever its error
    fields say; [power_set], which does not look at the answer, never
    raises it. *)
Theorem IndexError_iff
    (host : string) (port idx val : PyVal) (w : World) :
  (fst (power_get host port idx w) = Raise IndexError <->
   port = PyNone /\
   exists n ei es ex,
     py_int idx = Ok n /\ 1 <= n <= 16 /\
     getCmd w (session host) (status_oid n) = HlYield ei es ex []) /\
  fst (power_set host port idx val w) <> Raise IndexError.
Proof.
  split; [split|].
  - intros H.
    destruct (call_cases port idx) as [Hp | [-> [[e Hi] | [[n [Hi Hn]] | [n [Hi Hn]]]]]].
    + rewrite (power_get_port host port idx w Hp) in H. discriminate H.
    + rewrite (power_get_unconvertible host idx e w Hi) in H. int_failure_absurd H Hi.
    + rewrite (power_get_range host PyNone idx n w Hi Hn) in H. discriminate H.
    + split; [reflexivity|].
      rewrite (power_get_run host idx n w Hi Hn) in H.
      destruct (getCmd w (session host) (status_oid n))
        as [m | ei es ex [|[o v] rest] | m] eqn:Hw; cbn [fst] in H.
      * discriminate H.
      * exists n, ei, es, ex. repeat split; auto; apply Hn.
      * decode_status v; discriminate H.
      * discriminate H.
  - intros [-> (n & ei & es & ex & Hi & Hn & Hw)].
    now rewrite (power_get_run host idx n w Hi Hn), Hw.
  - intros H.
    destruct (call_cases port idx) as [Hp | [-> [[e Hi] | [[n [Hi Hn]] | [n [Hi Hn]]]]]].
    + rewrite (power_set_port host port idx val w Hp) in H. discriminate H.
    + rewrite (power_set_unconvertible host idx val e w Hi) in H. int_failure_absurd H Hi.
    + rewrite (power_set_range host PyNone idx val n w Hi Hn) in H. discriminate H.
    + destruct (UdpTransportTarget w host 161) as [msg|] eqn:Hb.
      { rewrite (power_set_unbuilt host idx val n w msg Hi Hn Hb) in H. discriminate H. }
      destruct (py_int val) as [v|e] eqn:Hv.
      * rewrite (power_set_run host idx val n v w Hi Hn Hv) in H.
        destruct (setCmd w (session host) (control_oid (if v =? 0 then 3 else 4) n) 1);
          discriminate H.
      * rewrite (power_set_value_unconvertible host idx val n e w Hi Hn Hv Hb) in H.
        int_failure_absurd H Hv.
Qed.

Lemma IndexError_iff_witness :
  fst (power_get "pdu" PyNone (PyInt 5) world_timeout) = Raise IndexError.
Proof.
  apply (IndexError_iff "pdu" PyNone (PyInt 5) PyNone world_timeout).
  split; [reflexivity|].
  exists 5, (Some "No SNMP response received before timeout"), 0, 0.
  repeat split; try reflexivity; lia.
Defined.

(** X10.  A pysnmp exception leaves [power_get] or [power_set] exactly
    when the arguments pass the port and index checks and either building
    the transport target raises it or the session is built and [next] on
    the one command raises it.  A target that cannot be built stops
    [power_set] before [int(value)] is evaluated, so the value plays no
    part in that case. *)
Theorem PySnmpError_iff
    (host : string) (port idx val : PyVal) (w : World) (msg : string) :
  (fst (power_get host port idx w) = Raise (PySnmpError msg) <->
   port = PyNone /\
   exists n, py_int idx = Ok n /\ 1 <= n <= 16 /\
     (UdpTransportTarget w host 161 = Some msg \/
      getCmd w (session host) (status_oid n) = HlRaise msg)) /\
  (fst (power_set host port idx val w) = Raise (PySnmpError msg) <->
   port = PyNone /\
   exists n, py_int idx = Ok n /\ 1 <= n <= 16 /\
     (UdpTransportTarget w host 161 = Some msg \/
      exists v, py_int val = Ok v /\
        setCmd w (session host) (control_oid (if v =? 0 then 3 else 4) n) 1 =
          HlRaise msg)).
Proof.
  split; split.
  - intros H.
    destruct (call_cases port idx) as [Hp | [-> [[e Hi] | [[n [Hi Hn]] | [n [Hi Hn]]]]]].
    + rewrite (power_get_port host port idx w Hp) in H. discriminate H.
    + rewrite (power_get_unconvertible host idx e w Hi) in H. int_failure_absurd H Hi.
    + rewrite (power_get_range host PyNone idx n w Hi Hn) in H. discriminate H.
    + split; [reflexivity|]. exists n. split; [exact Hi|]. split; [exact Hn|].
      destruct (UdpTransportTarget w host 161) as [m|] eqn:Hb.
      * rewrite (power_get_unbuilt host idx n w m Hi Hn Hb) in H.
        injection H as ->. now left.
      * right. rewrite (power_get_run host idx n w Hi Hn) in H.
        destruct (getCmd w (session host) (status_oid n))
          as [m | ei es ex [|[o v] rest] | m] eqn:Hw; cbn [fst] in H.
        -- now injection H as ->.
        -- discriminate H.
        -- decode_status v; discriminate H.
        -- rewrite (getCmd_built w host _ Hb) in Hw.
           destruct (next_getCmd w (session host) (status_oid n)); discriminate Hw.
  - intros [-> (n & Hi & Hn & [Hb | Hw])].
    + now rewrite (power_get_unbuilt host idx n w msg Hi Hn Hb).
    + now rewrite (power_get_run host idx n w Hi Hn), Hw.
  - intros H.
    destruct (call_cases port idx) as [Hp | [-> [[e Hi] | [[n [Hi Hn]] | [n [Hi Hn]]]]]].
    + rewrite (power_set_port host port idx val w Hp) in H. discriminate H.
    + rewrite (power_set_unconvertible host idx val e w Hi) in H. int_failure_absurd H Hi.
    + rewrite (power_set_range host PyNone idx val n w Hi Hn) in H. discriminate H.
    + split; [reflexivity|]. exists n. split; [exact Hi|]. split; [exact Hn|].
      destruct (UdpTransportTarget w host 161) as [m|] eqn:Hb.
      * rewrite (power_set_unbuilt host idx val n w m Hi Hn Hb) in H.
        injection H as ->. now left.
      * right. destruct (py_int val) as [v|e] eqn:Hv.
        -- rewrite (power_set_run host idx val n v w Hi Hn Hv) in H.
           destruct (setCmd w (session host) (control_oid (if v =? 0 then 3 else 4) n) 1)
             as [m | ei es ex vb | m] eqn:Hw; cbn [fst] in H.
           ++ injection H as ->. now exists v.
           ++ discriminate H.
           ++ rewrite (setCmd_built w host _ 1 Hb) in Hw.
              destruct (next_setCmd w (session host) _ 1); discriminate Hw.
        -- rewrite (power_set_value_unconvertible host idx val n e w Hi Hn Hv Hb) in H.
           int_failure_absurd H Hv.
  - intros [-> (n & Hi & Hn & [Hb | (v & Hv & Hw)])].
    + now rewrite (power_set_unbuilt host idx val n w msg Hi Hn Hb).
    + now rewrite (power_set_run host idx val n v w Hi Hn Hv), Hw.
Qed.

Lemma PySnmpError_iff_witness :
  fst (power_get "pdu" PyNone (PyInt 5) (world_raising "no route")) =
    Raise (PySnmpError "no route") /\
  fst (power_set "pdu" PyNone (PyInt 5) PyNone (world_unresolvable "bad address")) =
    Raise (PySnmpError "bad address").
Proof.
  split.
  - apply (PySnmpError_iff "pdu" PyNone (PyInt 5) PyNone (world_raising "no route")
             "no route").
    split; [reflexivity|]. exists 5.
    split; [reflexivity|]. split; [lia|]. right. reflexivity.
  - apply (PySnmpError_iff "pdu" PyNone (PyInt 5) PyNone
             (world_unresolvable "bad address") "bad address").
    split; [reflexivity|]. exists 5.
    split; [reflexivity|]. split; [lia|]. left. reflexivity.
Defined.

(** ** Float indices *)

Lemma float_trunc_fraction (m : positive) (k : Z) :
  0 <= k -> float_trunc (S754_finite false m (- k)) = Ok (Z.pos m / 2 ^ k).
Proof.
  intros Hk. cbn [float_trunc].
  change (Z.shiftl (Z.pos m) (- k)) with (Z.shiftr (Z.pos m) k).
  now rewrite Z.shiftr_div_pow2.
Qed.

Lemma quotient_in_range (a p : Z) :
  0 < p -> (in_range (a / p) <-> p <= a < 17 * p).
Proof.
  intros Hp. unfold in_range, NUMBER_OF_OUTLETS.
  pose proof (Z.div_mod a p ltac:(lia)) as Hd.
  pose proof (Z.mod_pos_bound a p Hp) as Hr.
  split; intros H; nia.
Qed.

(** X11.  A positive float index [m / 2^k] selects an outlet exactly when
    it lies in the interval from 1 (included) to 17 (excluded).  Inside
    the interval, on a host whose session can be built, [power_get] reads
    the status of the outlet numbered by the integral part; outside it,
    below 1 or from 17 on, [power_get] raises [AssertionError] and
    nothing is built or sent. *)
Theorem float_index_accepted_iff
    (host : string) (m : positive) (k : Z) (w : World) :
  0 <= k ->
  (2 ^ k <= Z.pos m < 17 * 2 ^ k ->
   UdpTransportTarget w host 161 = None ->
   snd (power_get host PyNone (PyFloat (S754_finite false m (- k))) w) =
     [EvSession (session host);
      EvGet (session host) (status_oid (Z.pos m / 2 ^ k))]) /\
  (Z.pos m < 2 ^ k \/ 17 * 2 ^ k <= Z.pos m ->
   power_get host PyNone (PyFloat (S754_finite false m (- k))) w =
     (Raise AssertionError, [])).
Proof.
  intros Hk.
  assert (Hp : 0 < 2 ^ k) by (apply Z.pow_pos_nonneg; lia).
  pose proof (float_trunc_fraction m k Hk) as Hf.
  pose proof (quotient_in_range (Z.pos m) (2 ^ k) Hp) as Hq.
  split.
  - intros Hn Hb. apply Hq in Hn.
    exact (power_get_trace_built host (PyFloat _) _ w Hf Hn Hb).
  - intros Hn.
    assert (Hr : ~ in_range (Z.pos m / 2 ^ k)) by (intros Hr; apply Hq in Hr; lia).
    exact (power_get_range host PyNone (PyFloat _) _ w Hf Hr).
Qed.

Lemma float_index_accepted_iff_witness :
  snd (power_get "pdu" PyNone (PyFloat float_16_9) (world_const 1)) =
    [EvSession (session "pdu");
     EvGet (session "pdu") (status_oid (4756927106410086 / 2 ^ 48))] /\
  power_get "pdu" PyNone (PyFloat (S754_finite false 17 (- 0))) (world_const 1) =
    (Raise AssertionError, []).
Proof.
  split.
  - apply (float_index_accepted_iff "pdu" 4756927106410086 48 (world_const 1));
      [lia | lia | reflexivity].
  - apply (float_index_accepted_iff "pdu" 17 0 (world_const 1)); lia.
Defined.


(** ** A host that cannot be reached *)

(** X13.  When the arguments pass the port and index checks but building
    the transport target raises, [power_get] and [power_set] raise that
    exception; the session was begun and no command was sent, and
    [power_set] does so whatever the value is, convertible or not. *)
Theorem session_not_built
    (host : string) (idx val : PyVal) (n : Z) (w : World) (msg : string) :
  py_int idx = Ok n -> 1 <= n <= 16 ->
  UdpTransportTarget w host 161 = Some msg ->
  power_get host PyNone idx w = (Raise (PySnmpError msg), [EvSession (session host)]) /\
  power_set host PyNone idx val w = (Raise (PySnmpError msg), [EvSession (session host)]).
Proof.
  intros Hi Hn Hb. split.
  - exact (power_get_unbuilt host idx n w msg Hi Hn Hb).
  - exact (power_set_unbuilt host idx val n w msg Hi Hn Hb).
Qed.

Lemma session_not_built_witness :
  power_get "nowhere" PyNone (PyInt 5) (world_unresolvable "bad address") =
    (Raise (PySnmpError "bad address"), [EvSession (session "nowhere")]) /\
  power_set "nowhere" PyNone (PyInt 5) PyNone (world_unresolvable "bad address") =
    (Raise (PySnmpError "bad address"), [EvSession (session "nowhere")]).
Proof.
  apply (session_not_built "nowhere" (PyInt 5) PyNone 5
           (world_unresolvable "bad address") "bad address");
    [reflexivity | lia | reflexivity].
Defined.
